(** * launchrail: the flight-data plotting script [plots/sample.py]

    The script loads a CSV file of flight telemetry with pandas and draws
    three 3D line plots with matplotlib.  It is a straight line of library
    calls that mutate shared objects (the figure, its axes, pyplot's registry
    of open figures) and that may raise.  The embedding below keeps that
    shape: a world holding the file system and the figure objects, a state
    and exception monad over it, one primitive per library call, and
    [plot_flight_data] written statement for statement as in the source. *)

From Stdlib Require Import ZArith.
From stdpp Require Import base option list strings gmap.

Local Open Scope string_scope.
Local Open Scope Z_scope.
Local Open Scope list_scope.

(** ** Exceptions and results *)

Inductive exn : Type :=
  | FileNotFoundError (path : string)
  | PermissionError (path : string)
  | EmptyDataError
  | ParserError
  | KeyError (key : string)
  | ValueError.

Inductive result (A : Type) : Type :=
  | Ok (a : A)
  | Raise (e : exn).
Arguments Ok {A} a.
Arguments Raise {A} e.

(** The two kinds of failure the script can meet: the load step could not
    produce a table, or a column lookup found no such label. *)
Definition data_access_error (e : exn) : bool :=
  match e with
  | FileNotFoundError _ | PermissionError _ | EmptyDataError | ParserError => true
  | KeyError _ | ValueError => false
  end.

Definition schema_error (e : exn) : bool :=
  match e with
  | KeyError _ => true
  | _ => false
  end.

(** The nine labels the script looks up, in the order it looks them up. *)
Definition required : list string :=
  ["Sx"; "Sy"; "Sz"; "Vx"; "Vy"; "Vz"; "Ax"; "Ay"; "Az"].

(** [fig.add_subplot(131, ...)]: a three-digit integer is read as
    rows, columns, index; the index must name a cell of the grid. *)
Definition subplot_code (n : Z) : option (Z * Z * Z) :=
  if (100 <=? n) && (n <=? 999) then
    let r := n / 100 in
    let c := (n / 10) mod 10 in
    let i := n mod 10 in
    if (1 <=? r) && (1 <=? c) && (1 <=? i) && (i <=? r * c)
    then Some (r, c, i) else None
  else None.

Section Telemetry.

(** The script never computes on a sample: it only moves the parsed numbers
    from the table to the plot.  The numeric type is therefore a parameter. *)
Context {value : Type}.

(** ** Input files *)

(** A delimited text file after tokenising: the header row and the data
    rows, in file order. *)
Record csv : Type := Csv {
  header : list string;
  rows : list (list value)
}.

Inductive fs_entry : Type :=
  | Unreadable
  | File (c : csv).

(** ** Tables *)

(** A pandas DataFrame as the script uses it: labelled columns, each a
    Series holding one value per row.  [read_csv] renames a repeated label
    [X] to [X.1], [X.2], ...; the first occurrence keeps its name and none
    of the labels looked up by the script contains a dot, so looking up the
    first column with a given label is what [df["X"]] returns. *)
Definition DataFrame : Type := list (string * list value).

Fixpoint lookup_col (df : DataFrame) (name : string) : option (list value) :=
  match df with
  | [] => None
  | (k, col) :: df' => if decide (k = name) then Some col else lookup_col df' name
  end.

(** Rows to columns: the columns of [r :: rs] are the columns of [rs] with
    the fields of [r] put in front. *)
Fixpoint transpose (ncols : nat) (rs : list (list value)) : list (list value) :=
  match rs with
  | [] => replicate ncols []
  | r :: rs' => zip_with cons r (transpose ncols rs')
  end.

Definition rectangular (c : csv) : Prop :=
  Forall (λ r : list value, length r = length (header c)) (rows c).

Definition rectangularb (c : csv) : bool :=
  forallb (λ r : list value, Nat.eqb (length r) (length (header c))) (rows c).

Definition frame_of (c : csv) : DataFrame :=
  zip (header c) (transpose (length (header c)) (rows c)).

(** ** Figures *)

Definition vertex : Type := value * value * value.

Record axes3d : Type := Axes3D {
  geometry : Z * Z * Z;
  projection : string;
  lines : list (list vertex);
  title : string;
  xlabel : string;
  ylabel : string;
  zlabel : string
}.

Record figure : Type := Figure {
  figsize : option (Z * Z);
  axes : list axes3d;
  tight : bool
}.

(** A freshly created axes has no artist, an empty title and empty labels. *)
Definition new_axes (g : Z * Z * Z) (proj : string) : axes3d :=
  Axes3D g proj [] EmptyString EmptyString EmptyString EmptyString.

Definition new_figure (size : option (Z * Z)) : figure :=
  Figure size [] false.

Definition add_line (l : list vertex) (a : axes3d) : axes3d :=
  Axes3D (geometry a) (projection a) (lines a ++ [l]) (title a)
         (xlabel a) (ylabel a) (zlabel a).

Definition with_title (s : string) (a : axes3d) : axes3d :=
  Axes3D (geometry a) (projection a) (lines a) s (xlabel a) (ylabel a) (zlabel a).

Definition with_xlabel (s : string) (a : axes3d) : axes3d :=
  Axes3D (geometry a) (projection a) (lines a) (title a) s (ylabel a) (zlabel a).

Definition with_ylabel (s : string) (a : axes3d) : axes3d :=
  Axes3D (geometry a) (projection a) (lines a) (title a) (xlabel a) s (zlabel a).

Definition with_zlabel (s : string) (a : axes3d) : axes3d :=
  Axes3D (geometry a) (projection a) (lines a) (title a) (xlabel a) (ylabel a) s.

Definition with_axes (g : list axes3d → list axes3d) (f : figure) : figure :=
  Figure (figsize f) (g (axes f)) (tight f).

Definition with_tight (f : figure) : figure :=
  Figure (figsize f) (axes f) true.

(** ** The world *)

(** Figure objects live in [heap]; a figure handle is its index there, an
    axes handle is a figure handle and an index into that figure's axes.
    [open_figs] is pyplot's registry of open figures, the current figure
    last.  [screen] records what [plt.show] has put on the display.
    [interactive] tells whether the backend has a display at all. *)
Record world : Type := World {
  fs : gmap string fs_entry;
  interactive : bool;
  heap : list figure;
  open_figs : list nat;
  screen : list figure
}.

Definition with_heap (g : list figure → list figure) (w : world) : world :=
  World (fs w) (interactive w) (g (heap w)) (open_figs w) (screen w).

(** ** The monad: state, and exceptions that keep the state reached *)

Definition M (A : Type) : Type := world → result A * world.

#[global] Instance M_ret : MRet M := λ A (a : A) w, (Ok a, w).

#[global] Instance M_bind : MBind M := λ A B (k : A → M B) (m : M A) w,
  match m w with
  | (Ok a, w') => k a w'
  | (Raise e, w') => (Raise e, w')
  end.

Definition raise {A : Type} (e : exn) : M A := λ w, (Raise e, w).

(** ** pandas *)

(** [pd.read_csv(path)].  A missing file, an unreadable one and a file
    without a header line end the load step with an exception.  A file
    whose rows all have one field per header label is turned into the
    table of its columns.  On a file with a row of another length pandas
    either refuses the file or repairs the row, depending on the row; the
    model refuses it, and every statement below about a loaded table is
    about a file with rows of the header's length. *)
Definition read_csv (path : string) : M DataFrame := λ w,
  match fs w !! path with
  | None => (Raise (FileNotFoundError path), w)
  | Some Unreadable => (Raise (PermissionError path), w)
  | Some (File c) =>
      match header c with
      | [] => (Raise EmptyDataError, w)
      | _ :: _ =>
          if rectangularb c then (Ok (frame_of c), w)
          else (Raise ParserError, w)
      end
  end.

(** [df[name]] *)
Definition getitem (df : DataFrame) (name : string) : M (list value) :=
  match lookup_col df name with
  | Some col => mret col
  | None => raise (KeyError name)
  end.

(** ** matplotlib *)

(** [plt.figure(figsize=...)]: a new figure object, registered as the
    current figure. *)
Definition plt_figure (size : option (Z * Z)) : M nat := λ w,
  let h := length (heap w) in
  (Ok h, World (fs w) (interactive w) (heap w ++ [new_figure size])
               (open_figs w ++ [h]) (screen w)).

Definition update_figure (h : nat) (g : figure → figure) : M unit := λ w,
  (Ok tt, with_heap (alter g h) w).

Definition update_axes (ax : nat * nat) (g : axes3d → axes3d) : M unit :=
  update_figure ax.1 (with_axes (alter g ax.2)).

(** [fig.add_subplot(code, projection=proj)] *)
Definition add_subplot (fig : nat) (code : Z) (proj : string) : M (nat * nat) := λ w,
  match subplot_code code with
  | None => (Raise ValueError, w)
  | Some g =>
      let i := from_option (λ f, length (axes f)) 0%nat (heap w !! fig) in
      (Ok (fig, i), with_heap (alter (with_axes (λ l, l ++ [new_axes g proj])) fig) w)
  end.

(** [ax.plot(xs, ys, zs)]: one line through the points
    [(xs[i], ys[i], zs[i])] in index order; sequences of different lengths
    are refused. *)
Definition ax_plot (ax : nat * nat) (xs ys zs : list value) : M unit :=
  if decide (length xs = length ys ∧ length ys = length zs)
  then update_axes ax (add_line (zip (zip xs ys) zs))
  else raise ValueError.

Definition set_title (ax : nat * nat) (s : string) : M unit :=
  update_axes ax (with_title s).
Definition set_xlabel (ax : nat * nat) (s : string) : M unit :=
  update_axes ax (with_xlabel s).
Definition set_ylabel (ax : nat * nat) (s : string) : M unit :=
  update_axes ax (with_ylabel s).
Definition set_zlabel (ax : nat * nat) (s : string) : M unit :=
  update_axes ax (with_zlabel s).

(** [plt.gcf()]: the current figure; pyplot makes one if none is open. *)
Definition gcf : M nat := λ w,
  match last (open_figs w) with
  | Some h => (Ok h, w)
  | None => plt_figure None w
  end.

(** [plt.tight_layout()] acts on the current figure. *)
Definition plt_tight_layout : M unit :=
  h ← gcf; update_figure h with_tight.

(** [plt.show()]: with a display, every open figure is drawn as it is at
    that moment and the call returns once the windows are closed, which
    takes the figures off the registry; without one the call returns at
    once and nothing is drawn. *)
Definition plt_show : M unit := λ w,
  if interactive w
  then (Ok tt, World (fs w) true (heap w) []
                     (screen w ++ omap (λ h, heap w !! h) (open_figs w)))
  else (Ok tt, w).

(** ** The script *)

Definition plot_flight_data (csv_path : string) : M unit :=
  df ← read_csv csv_path;
  fig ← plt_figure (Some (15, 5));
  ax1 ← add_subplot fig 131 "3d";
  sx ← getitem df "Sx"; sy ← getitem df "Sy"; sz ← getitem df "Sz";
  ax_plot ax1 sx sy sz;;
  set_title ax1 "Position";;
  set_xlabel ax1 "X (m)";;
  set_ylabel ax1 "Y (m)";;
  set_zlabel ax1 "Z (m)";;
  ax2 ← add_subplot fig 132 "3d";
  vx ← getitem df "Vx"; vy ← getitem df "Vy"; vz ← getitem df "Vz";
  ax_plot ax2 vx vy vz;;
  set_title ax2 "Velocity";;
  set_xlabel ax2 "X (m/s)";;
  set_ylabel ax2 "Y (m/s)";;
  set_zlabel ax2 "Z (m/s)";;
  ax3 ← add_subplot fig 133 "3d";
  ax ← getitem df "Ax"; ay ← getitem df "Ay"; az ← getitem df "Az";
  ax_plot ax3 ax ay az;;
  set_title ax3 "Acceleration";;
  set_xlabel ax3 "X (m/s²)";;
  set_ylabel ax3 "Y (m/s²)";;
  set_zlabel ax3 "Z (m/s²)";;
  plt_tight_layout;;
  plt_show.

Definition csv_path_literal : string :=
  "/Users/adambyrne/.launchrail/motion/2025-01-26T21:47:39.csv".

(** The module body: under [if __name__ == "__main__":] the renderer is
    called on the literal path.  [argv] is the process's argument vector,
    which the script never reads. *)
Definition script (name : string) (argv : list string) : M unit :=
  if decide (name = "__main__") then plot_flight_data csv_path_literal
  else mret tt.

(** ** What a file says, read row by row *)

(** The field of a row that stands under the first header label equal to
    [name]. *)
Fixpoint field (hdr : list string) (name : string) (row : list value) : option value :=
  match hdr, row with
  | h :: hdr', x :: row' => if decide (h = name) then Some x else field hdr' name row'
  | _, _ => None
  end.

(** The point a row gives for a triple of labels. *)
Definition sample (hdr : list string) (names : string * string * string)
    (row : list value) : option vertex :=
  x ← field hdr names.1.1 row;
  y ← field hdr names.1.2 row;
  z ← field hdr names.2 row;
  Some (x, y, z).

(** The points of all rows, in file order: one per row, none dropped. *)
Definition trajectory (c : csv) (names : string * string * string) : option (list vertex) :=
  mapM (sample (header c) names) (rows c).

(** The values of one labelled column, in file order. *)
Definition column (c : csv) (name : string) : option (list value) :=
  mapM (field (header c) name) (rows c).

Definition complete (c : csv) : Prop :=
  Forall (λ n, n ∈ header c) required.

(** A well-formed input: the nine labels are in the header, every row has
    one field per label, and there is at least one row. *)
Definition well_formed (c : csv) : Prop :=
  complete c ∧ rectangular c ∧ (1 ≤ length (rows c))%nat.

(** The first of the nine labels, in lookup order, that the header lacks,
    with its position among the nine. *)
Definition first_missing (hdr : list string) : option (nat * string) :=
  list_find (λ n, n ∉ hdr) required.

(** [path] names a file that the load step turns into a table. *)
Definition loads (w : world) (path : string) (c : csv) : Prop :=
  fs w !! path = Some (File c) ∧ header c ≠ [] ∧ rectangular c.

(** The world once a new figure object [f] has been made current. *)
Definition register (w : world) (f : figure) : world :=
  World (fs w) (interactive w) (heap w ++ [f])
        (open_figs w ++ [length (heap w)]) (screen w).

(** The figure object an invocation started in [w] creates, as found in a
    later world. *)
Definition created (w w' : world) : option figure :=
  heap w' !! length (heap w).

(** The three finished panels. *)
Definition position_panel (l : list vertex) : axes3d :=
  Axes3D (1, 3, 1) "3d" [l] "Position" "X (m)" "Y (m)" "Z (m)".
Definition velocity_panel (l : list vertex) : axes3d :=
  Axes3D (1, 3, 2) "3d" [l] "Velocity" "X (m/s)" "Y (m/s)" "Z (m/s)".
Definition acceleration_panel (l : list vertex) : axes3d :=
  Axes3D (1, 3, 3) "3d" [l] "Acceleration" "X (m/s²)" "Y (m/s²)" "Z (m/s²)".

Definition flight_figure (s v a : list vertex) : figure :=
  Figure (Some (15, 5))
         [position_panel s; velocity_panel v; acceleration_panel a] true.

(** The panels in the order the script builds them, each with the labels
    of the columns it draws, and the first [k] of them for a given file. *)
Definition panel_table : list ((list vertex → axes3d) * (string * string * string)) :=
  [(position_panel, ("Sx", "Sy", "Sz"));
   (velocity_panel, ("Vx", "Vy", "Vz"));
   (acceleration_panel, ("Ax", "Ay", "Az"))].

Definition finished_panels (c : csv) (k : nat) : option (list axes3d) :=
  mapM (λ p, p.1 <$> trajectory c p.2) (take k panel_table).

(** An axes that carries nothing: no line, no title, no label. *)
Definition bare (a : axes3d) : Prop :=
  lines a = [] ∧ title a = EmptyString ∧ xlabel a = EmptyString ∧
  ylabel a = EmptyString ∧ zlabel a = EmptyString.

End Telemetry.

Arguments csv : clear implicits.
Arguments fs_entry : clear implicits.
Arguments DataFrame : clear implicits.
Arguments vertex : clear implicits.
Arguments axes3d : clear implicits.
Arguments figure : clear implicits.
Arguments world : clear implicits.
Arguments M : clear implicits.

(** ** Concrete inputs *)

(** A two-row log with a time column in front of the nine required ones. *)
Definition flight_csv : csv Z :=
  Csv ["t"; "Sx"; "Sy"; "Sz"; "Vx"; "Vy"; "Vz"; "Ax"; "Ay"; "Az"]
      [[0; 0; 0; 0; 10; 20; 30; 1; 1; -9];
       [1; 1; 2; 3; 11; 21; 21; 1; 1; -9]].

(** The same samples without the time column but with a trailing status
    column. *)
Definition flight_csv_status : csv Z :=
  Csv ["Sx"; "Sy"; "Sz"; "Vx"; "Vy"; "Vz"; "Ax"; "Ay"; "Az"; "status"]
      [[0; 0; 0; 10; 20; 30; 1; 1; -9; 7];
       [1; 2; 3; 11; 21; 21; 1; 1; -9; 8]].

(** A log whose velocity triple lacks its first column. *)
Definition no_vx_csv : csv Z :=
  Csv ["Sx"; "Sy"; "Sz"; "Vy"; "Vz"; "Ax"; "Ay"; "Az"]
      [[0; 0; 0; 20; 30; 1; 1; -9];
       [1; 2; 3; 21; 21; 1; 1; -9]].

(** A log that lacks both [Vy] and [Az]. *)
Definition no_vy_az_csv : csv Z :=
  Csv ["Sx"; "Sy"; "Sz"; "Vx"; "Vz"; "Ax"; "Ay"]
      [[0; 0; 0; 10; 30; 1; 1];
       [1; 2; 3; 11; 21; 1; 1]].

(** A log with the header line only. *)
Definition header_only_csv : csv Z :=
  Csv ["Sx"; "Sy"; "Sz"; "Vx"; "Vy"; "Vz"; "Ax"; "Ay"; "Az"] [].

(** A machine with a display, these files on disk, one file that may not be
    read, and no figure created yet. *)
Definition desktop : world Z :=
  World (<["flight.csv" := File flight_csv]>
         (<["status.csv" := File flight_csv_status]>
         (<["no_vx.csv" := File no_vx_csv]>
         (<["no_vy_az.csv" := File no_vy_az_csv]>
         (<["empty.csv" := File header_only_csv]>
         (<["locked.csv" := Unreadable]> ∅))))))
        true [] [] [].

(** The two-row log cut after its first row. *)
Definition flight_csv_first : csv Z :=
  Csv ["t"; "Sx"; "Sy"; "Sz"; "Vx"; "Vy"; "Vz"; "Ax"; "Ay"; "Az"]
      [[0; 0; 0; 0; 10; 20; 30; 1; 1; -9]].

(** A machine without a display, with the same files and the cut log, on
    which one figure made earlier is still open. *)
Definition server : world Z :=
  World (<["first.csv" := File flight_csv_first]> (fs desktop))
        false [new_figure None] [0%nat] [].

(** * Facts about the model *)

Section TelemetryFacts.
Context {value : Type}.
Implicit Types (w : world value) (c : csv value) (f : figure value).
Implicit Types (df : DataFrame value) (hdr : list string) (name path : string).

(** ** Running one statement *)

Lemma bind_ok {A B} (m : M value A) (k : A → M value B) w a w' :
  m w = (Ok a, w') → (m ≫= k) w = k a w'.
Proof. intros E. unfold mbind, M_bind. by rewrite E. Qed.

Lemma bind_raise {A B} (m : M value A) (k : A → M value B) w e w' :
  m w = (Raise e, w') → (m ≫= k) w = (Raise e, w').
Proof. intros E. unfold mbind, M_bind. by rewrite E. Qed.

(** ** Columns of the loaded table *)

Lemma length_transpose n (rs : list (list value)) :
  Forall (λ r, length r = n) rs → length (transpose n rs) = n.
Proof.
  induction 1 as [|r rs Hr _ IH]; simpl.
  - apply length_replicate.
  - rewrite length_zip_with. lia.
Qed.

Lemma lookup_col_absent hdr (cols : list (list value)) name :
  name ∉ hdr → lookup_col (zip hdr cols) name = None.
Proof.
  revert cols. induction hdr as [|h hdr IH]; intros [|col cols] Hn; simpl; try done.
  apply not_elem_of_cons in Hn as [Hne Hn].
  case_decide; [congruence | by apply IH].
Qed.

Lemma lookup_col_no_rows hdr name :
  name ∈ hdr →
  lookup_col (zip hdr (replicate (length hdr) ([] : list value))) name = Some [].
Proof.
  induction hdr as [|h hdr IH]; intros Hin; simpl.
  - by apply elem_of_nil in Hin.
  - case_decide; [done|]. apply IH.
    apply elem_of_cons in Hin as [->|Hin]; [congruence | done].
Qed.

Lemma lookup_col_push hdr (r : list value) (T : list (list value)) name :
  length r = length hdr → length T = length hdr →
  lookup_col (zip hdr (zip_with cons r T)) name
  = (x ← field hdr name r; col ← lookup_col (zip hdr T) name; Some (x :: col)).
Proof.
  revert r T. induction hdr as [|h hdr IH]; intros [|x r] [|col T] Hr HT;
    simpl in *; try done.
  case_decide; [done|]. apply IH; lia.
Qed.

Lemma lookup_col_transpose hdr (rs : list (list value)) name :
  Forall (λ r, length r = length hdr) rs → name ∈ hdr →
  lookup_col (zip hdr (transpose (length hdr) rs)) name = mapM (field hdr name) rs.
Proof.
  intros Hrs Hin. induction Hrs as [|r rs Hr Hrs IH]; simpl.
  - by apply lookup_col_no_rows.
  - rewrite lookup_col_push, IH; [done..|]. by apply length_transpose.
Qed.

Lemma field_present hdr name (r : list value) :
  name ∈ hdr → length r = length hdr → is_Some (field hdr name r).
Proof.
  revert r. induction hdr as [|h hdr IH]; intros [|x r] Hin Hr; simpl in *; try done.
  - by apply elem_of_nil in Hin.
  - case_decide; [by eexists|]. apply IH; [|lia].
    apply elem_of_cons in Hin as [->|Hin]; [congruence | done].
Qed.

Lemma column_present c name :
  rectangular c → name ∈ header c →
  ∃ col, column c name = Some col ∧ length col = length (rows c).
Proof.
  intros Hrect Hin.
  destruct (mapM_is_Some_2 (field (header c) name) (rows c)) as [col Hcol].
  { eapply Forall_impl; [exact Hrect|]. intros r Hr. by apply field_present. }
  exists col. split; [done|]. symmetry. by eapply length_mapM.
Qed.

Lemma getitem_present c name :
  rectangular c → name ∈ header c →
  lookup_col (frame_of c) name = column c name.
Proof. intros. by apply lookup_col_transpose. Qed.

Lemma getitem_absent c name :
  name ∉ header c → lookup_col (frame_of c) name = None.
Proof. intros. by apply lookup_col_absent. Qed.

Lemma trajectory_zip c a b d xs ys zs :
  column c a = Some xs → column c b = Some ys → column c d = Some zs →
  trajectory c (a, b, d) = Some (zip (zip xs ys) zs).
Proof.
  unfold column, trajectory. rewrite !mapM_Some.
  intros Hx. revert ys zs.
  induction Hx as [|r x rs xs' Hfx _ IH]; intros ys zs Hy Hz.
  - constructor.
  - inversion Hy as [|? y ? ys' Hfy Hys]; inversion Hz as [|? z ? zs' Hfz Hzs].
    simplify_eq. simpl. constructor; [|by apply IH].
    unfold sample; simpl. by rewrite Hfx, Hfy, Hfz.
Qed.

(** ** The library calls on the figure under construction *)

Lemma run_plt_figure size w :
  plt_figure size w = (Ok (length (heap w)), register w (new_figure size)).
Proof. reflexivity. Qed.

Lemma run_update_figure w f (g : figure value → figure value) :
  update_figure (length (heap w)) g (register w f) = (Ok tt, register w (g f)).
Proof.
  unfold update_figure, with_heap, register; simpl. do 2 f_equal.
  rewrite alter_app_r_alt by lia. by rewrite Nat.sub_diag.
Qed.

Lemma run_update_axes w size l a t (g : axes3d value → axes3d value) :
  update_axes (length (heap w), length l) g (register w (Figure size (l ++ [a]) t))
  = (Ok tt, register w (Figure size (l ++ [g a]) t)).
Proof.
  unfold update_axes; simpl. rewrite run_update_figure.
  unfold with_axes; simpl. do 3 f_equal.
  rewrite alter_app_r_alt by lia. by rewrite Nat.sub_diag.
Qed.

Lemma run_add_subplot w size l t code proj g :
  subplot_code code = Some g →
  add_subplot (length (heap w)) code proj (register w (Figure size l t))
  = (Ok (length (heap w), length l),
     register w (Figure size (l ++ [new_axes g proj]) t)).
Proof.
  intros Hg. unfold add_subplot. rewrite Hg.
  unfold with_heap, register; simpl.
  rewrite list_lookup_middle by done. simpl. do 3 f_equal.
  rewrite alter_app_r_alt by lia. by rewrite Nat.sub_diag.
Qed.

Lemma run_tight_layout w f :
  plt_tight_layout (register w f) = (Ok tt, register w (with_tight f)).
Proof.
  unfold plt_tight_layout. erewrite bind_ok; [apply run_update_figure|].
  unfold gcf, register; simpl. by rewrite last_snoc.
Qed.

(** One of the three blocks of the script, followed by the rest [k] of the
    function: the axes is created first, then the three columns are looked
    up from left to right, and only then is the axes drawn on. *)
Lemma run_panel w df size l t code g a b d T X Y Zl (k : M value ()) :
  subplot_code code = Some g →
  (ax ← add_subplot (length (heap w)) code "3d";
   xs ← getitem df a; ys ← getitem df b; zs ← getitem df d;
   ax_plot ax xs ys zs;;
   set_title ax T;; set_xlabel ax X;; set_ylabel ax Y;; set_zlabel ax Zl;; k)
    (register w (Figure size l t))
  = let stopped := register w (Figure size (l ++ [new_axes g "3d"]) t) in
    match lookup_col df a, lookup_col df b, lookup_col df d with
    | Some xs, Some ys, Some zs =>
        if decide (length xs = length ys ∧ length ys = length zs)
        then k (register w (Figure size
                 (l ++ [Axes3D g "3d" [zip (zip xs ys) zs] T X Y Zl]) t))
        else (Raise ValueError, stopped)
    | None, _, _ => (Raise (KeyError a), stopped)
    | Some _, None, _ => (Raise (KeyError b), stopped)
    | Some _, Some _, None => (Raise (KeyError d), stopped)
    end.
Proof.
  intros Hg. erewrite bind_ok; [|by apply run_add_subplot]. cbv beta zeta.
  unfold getitem.
  destruct (lookup_col df a) as [xs|]; [|by erewrite bind_raise].
  erewrite bind_ok; [|done]. cbv beta.
  destruct (lookup_col df b) as [ys|]; [|by erewrite bind_raise].
  erewrite bind_ok; [|done]. cbv beta.
  destruct (lookup_col df d) as [zs|]; [|by erewrite bind_raise].
  erewrite bind_ok; [|done]. cbv beta.
  unfold ax_plot. case_decide; [|by erewrite bind_raise].
  unfold set_title, set_xlabel, set_ylabel, set_zlabel.
  do 5 (erewrite bind_ok; [|by apply run_update_axes]; cbv beta).
  done.
Qed.

(** ** The load step *)

Lemma rectangularb_spec c : rectangularb c = true ↔ rectangular c.
Proof.
  unfold rectangularb, rectangular.
  rewrite <- Is_true_true, forallb_True.
  apply Forall_proper; [|done]. intros r. by rewrite Is_true_true, Nat.eqb_eq.
Qed.

Lemma run_read_csv w path c :
  loads w path c → read_csv path w = (Ok (frame_of c), w).
Proof.
  intros (Hfs & Hhdr & Hrect). unfold read_csv. rewrite Hfs.
  apply rectangularb_spec in Hrect. rewrite Hrect.
  by destruct (header c).
Qed.

Lemma complete_header c : complete c → header c ≠ [].
Proof.
  intros Hc Hnil. unfold complete in Hc. rewrite Hnil in Hc.
  apply Forall_cons_1 in Hc as [Hin _]. by apply elem_of_nil in Hin.
Qed.

(** ** The whole function *)

(** Resolve the lookup of one label on the loaded table from what is known
    about the header. *)
Ltac resolve_column Hrect name :=
  match goal with
  | H : name ∈ header ?c |- _ =>
      let xs := fresh "xs" in
      let E := fresh "E" in
      let L := fresh "L" in
      destruct (column_present c name Hrect H) as (xs & E & L);
      rewrite (getitem_present c name Hrect H), E
  | H : name ∉ header ?c |- _ => rewrite (getitem_absent c name H)
  end.

Ltac run_one_panel Hrect a b d :=
  erewrite run_panel by reflexivity;
  try resolve_column Hrect a; try resolve_column Hrect b; try resolve_column Hrect d;
  cbv beta iota zeta;
  try rewrite decide_True by (split; congruence).

Ltac run_entry Hload :=
  unfold plot_flight_data;
  erewrite bind_ok by (apply run_read_csv, Hload); cbv beta;
  erewrite bind_ok by apply run_plt_figure; cbv beta;
  unfold new_figure.

Lemma run_complete w path c :
  fs w !! path = Some (File c) → complete c → rectangular c →
  ∃ s v a,
    trajectory c ("Sx", "Sy", "Sz") = Some s ∧
    trajectory c ("Vx", "Vy", "Vz") = Some v ∧
    trajectory c ("Ax", "Ay", "Az") = Some a ∧
    plot_flight_data path w = plt_show (register w (flight_figure s v a)).
Proof.
  intros Hfs Hc Hrect.
  assert (Hload : loads w path c) by (split_and!; auto using complete_header).
  unfold complete, required in Hc. rewrite !Forall_cons in Hc.
  destruct Hc as (? & ? & ? & ? & ? & ? & ? & ? & ? & _).
  run_entry Hload.
  run_one_panel Hrect "Sx" "Sy" "Sz".
  run_one_panel Hrect "Vx" "Vy" "Vz".
  run_one_panel Hrect "Ax" "Ay" "Az".
  erewrite bind_ok by apply run_tight_layout.
  eexists _, _, _. split_and!; [by eapply trajectory_zip..|done].
Qed.

Lemma run_missing w path c j n :
  loads w path c → first_missing (header c) = Some (j, n) →
  ∃ done,
    finished_panels c (j / 3)%nat = Some done ∧
    plot_flight_data path w
    = (Raise (KeyError n),
       register w (Figure (Some (15, 5))
                     (done ++ [new_axes (1, 3, Z.of_nat (S (j / 3))) "3d"]) false)).
Proof.
  intros Hload Hm. pose proof Hload as (_ & _ & Hrect).
  unfold first_missing, required in Hm. cbn in Hm.
  repeat case_decide; cbn in Hm; simplify_eq;
    repeat match goal with H : ¬ (_ ∉ _) |- _ => apply dec_stable in H end;
    run_entry Hload.
  all: run_one_panel Hrect "Sx" "Sy" "Sz"; try (by exists []).
  all: run_one_panel Hrect "Vx" "Vy" "Vz";
    try (eexists [_]; split; [|done];
         unfold finished_panels; cbn;
         by erewrite trajectory_zip by done).
  all: run_one_panel Hrect "Ax" "Ay" "Az".
  all: eexists [_; _]; split; [|done].
  all: unfold finished_panels; cbn.
  all: by do 2 (erewrite trajectory_zip by done; cbn).
Qed.

(** The last statement, [plt.show()], on the world that holds the finished
    figure as the current one. *)
Lemma run_plt_show w f :
  ∃ w', plt_show (register w f) = (Ok (), w') ∧
        heap w' = heap w ++ [f] ∧ fs w' = fs w ∧
        interactive w' = interactive w ∧
        (interactive w = true → last (screen w') = Some f) ∧
        (interactive w = false → screen w' = screen w).
Proof.
  unfold plt_show, register; simpl. destruct (interactive w) eqn:Hi.
  - eexists. split_and!; simpl; try done. intros _.
    rewrite omap_app; simpl. rewrite list_lookup_middle by done; simpl.
    by rewrite app_assoc, last_snoc.
  - eexists. split_and!; simpl; done.
Qed.

Lemma created_snoc w w' f l :
  heap w' = heap w ++ f :: l → created w w' = Some f.
Proof. intros E. unfold created. rewrite E. by apply list_lookup_middle. Qed.

(** A successful run, summed up: the three trajectories exist, the function
    returns, and the heap has grown by exactly the finished figure. *)
Lemma run_summary w path c :
  fs w !! path = Some (File c) → complete c → rectangular c →
  ∃ s v a w',
    trajectory c ("Sx", "Sy", "Sz") = Some s ∧
    trajectory c ("Vx", "Vy", "Vz") = Some v ∧
    trajectory c ("Ax", "Ay", "Az") = Some a ∧
    plot_flight_data path w = (Ok (), w') ∧
    heap w' = heap w ++ [flight_figure s v a] ∧
    fs w' = fs w ∧
    (interactive w = true → last (screen w') = Some (flight_figure s v a)).
Proof.
  intros Hfs Hc Hrect.
  destruct (run_complete w path c Hfs Hc Hrect) as (s & v & a & Hs & Hv & Ha & Hrun).
  destruct (run_plt_show w (flight_figure s v a)) as (w' & Hshow & Hh & Hf & _ & Hscr & _).
  exists s, v, a, w'. rewrite Hrun. by split_and!.
Qed.

Lemma first_missing_complete hdr :
  first_missing hdr = None → Forall (λ n, n ∈ hdr) required.
Proof.
  unfold first_missing. rewrite list_find_None. intros Hall.
  eapply Forall_impl; [exact Hall|]. intros n Hn. by apply dec_stable.
Qed.

(** What [trajectory] says, spelled out: the line has one vertex per row,
    the k-th vertex being the sample of the k-th row. *)
Lemma trajectory_rows c names s :
  trajectory c names = Some s ↔
  Forall2 (λ row pt, sample (header c) names row = Some pt) (rows c) s.
Proof. apply mapM_Some. Qed.

(** * The claims *)

(** C1: for a well-formed input file (the nine required columns present,
    at least one row) the renderer returns normally and the figure it
    creates has three panels, each with exactly one line, whose vertex
    sequences are the row-order sequences of the (Sx,Sy,Sz), (Vx,Vy,Vz)
    and (Ax,Ay,Az) triples of the file: one vertex per row, in file
    order, nothing reordered, dropped or resampled. *)
Theorem plotted_lines_follow_rows w path c :
  fs w !! path = Some (File c) → well_formed c →
  ∃ w' f p1 p2 p3 s v a,
    plot_flight_data path w = (Ok (), w') ∧
    created w w' = Some f ∧ axes f = [p1; p2; p3] ∧
    lines p1 = [s] ∧ trajectory c ("Sx", "Sy", "Sz") = Some s ∧
    lines p2 = [v] ∧ trajectory c ("Vx", "Vy", "Vz") = Some v ∧
    lines p3 = [a] ∧ trajectory c ("Ax", "Ay", "Az") = Some a ∧
    length s = length (rows c) ∧ length v = length (rows c) ∧
    length a = length (rows c).
Proof.
  intros Hfs (Hc & Hrect & _).
  destruct (run_summary w path c Hfs Hc Hrect)
    as (s & v & a & w' & Hs & Hv & Ha & Hrun & Hheap & _).
  exists w', (flight_figure s v a), (position_panel s), (velocity_panel v),
    (acceleration_panel a), s, v, a.
  split_and!; try done.
  - by eapply created_snoc.
  - symmetry. by eapply length_mapM.
  - symmetry. by eapply length_mapM.
  - symmetry. by eapply length_mapM.
Qed.

(** C2: for a well-formed input file the renderer produces exactly three
    panels, in the order Position, Velocity, Acceleration, at the cells
    1, 2, 3 of a 1x3 grid, with the titles and the axis labels of the
    script; on a machine with a display this figure is the last one
    drawn. *)
Theorem three_labelled_panels w path c :
  fs w !! path = Some (File c) → well_formed c →
  ∃ w' f p1 p2 p3,
    plot_flight_data path w = (Ok (), w') ∧
    created w w' = Some f ∧ axes f = [p1; p2; p3] ∧
    (interactive w = true → last (screen w') = Some f) ∧
    geometry p1 = (1, 3, 1) ∧ title p1 = "Position" ∧
    xlabel p1 = "X (m)" ∧ ylabel p1 = "Y (m)" ∧ zlabel p1 = "Z (m)" ∧
    geometry p2 = (1, 3, 2) ∧ title p2 = "Velocity" ∧
    xlabel p2 = "X (m/s)" ∧ ylabel p2 = "Y (m/s)" ∧ zlabel p2 = "Z (m/s)" ∧
    geometry p3 = (1, 3, 3) ∧ title p3 = "Acceleration" ∧
    xlabel p3 = "X (m/s²)" ∧ ylabel p3 = "Y (m/s²)" ∧ zlabel p3 = "Z (m/s²)".
Proof.
  intros Hfs (Hc & Hrect & _).
  destruct (run_summary w path c Hfs Hc Hrect)
    as (s & v & a & w' & _ & _ & _ & Hrun & Hheap & _ & Hscreen).
  exists w', (flight_figure s v a), (position_panel s), (velocity_panel v),
    (acceleration_panel a).
  split_and!; try done. by eapply created_snoc.
Qed.

(** C9: a file whose header has the nine required columns and which has
    no data row is rendered without failure: three titled and labelled
    panels, each holding one line with no vertex. *)
Theorem header_only_file_renders w path c :
  fs w !! path = Some (File c) → complete c → rows c = [] →
  ∃ w' f,
    plot_flight_data path w = (Ok (), w') ∧
    created w w' = Some f ∧
    axes f = [position_panel []; velocity_panel []; acceleration_panel []].
Proof.
  intros Hfs Hc Hrows.
  assert (Hrect : rectangular c) by (unfold rectangular; rewrite Hrows; constructor).
  destruct (run_summary w path c Hfs Hc Hrect)
    as (s & v & a & w' & Hs & Hv & Ha & Hrun & Hheap & _).
  unfold trajectory in Hs, Hv, Ha. rewrite Hrows in Hs, Hv, Ha.
  cbn in Hs, Hv, Ha. unfold mret, option_ret in Hs, Hv, Ha. simplify_eq.
  exists w', (flight_figure [] [] []). split_and!; try done.
  by eapply created_snoc.
Qed.

(** C4: a path that names no file, or a file that cannot be read, makes
    the load step raise; the renderer fails with that data-access error,
    which is not a schema error, and the world is left as it was: no
    figure object and no panel has been created. *)
Theorem missing_file_is_load_error w path :
  fs w !! path = None ∨ fs w !! path = Some Unreadable →
  ∃ e,
    read_csv path w = (Raise e, w) ∧
    plot_flight_data path w = (Raise e, w) ∧
    data_access_error e = true ∧ schema_error e = false.
Proof.
  intros [Hfs|Hfs].
  - exists (FileNotFoundError path).
    assert (read_csv path w = (Raise (FileNotFoundError path), w)) as Hread
      by (unfold read_csv; by rewrite Hfs).
    split_and!; try done. unfold plot_flight_data. by erewrite bind_raise.
  - exists (PermissionError path).
    assert (read_csv path w = (Raise (PermissionError path), w)) as Hread
      by (unfold read_csv; by rewrite Hfs).
    split_and!; try done. unfold plot_flight_data. by erewrite bind_raise.
Qed.

(** C5: running the renderer twice in a row on the same well-formed file
    succeeds both times and the two figures created have identical panels,
    hence identical vertex sequences; the second run finds the first
    figure's object in the heap and leaves it as it was. *)
Theorem rerun_same_vertices w path c :
  fs w !! path = Some (File c) → well_formed c →
  ∃ w1 w2 f1 f2,
    plot_flight_data path w = (Ok (), w1) ∧
    plot_flight_data path w1 = (Ok (), w2) ∧
    created w w1 = Some f1 ∧ created w1 w2 = Some f2 ∧
    axes f1 = axes f2 ∧ map lines (axes f1) = map lines (axes f2) ∧
    created w w2 = Some f1.
Proof.
  intros Hfs (Hc & Hrect & _).
  destruct (run_summary w path c Hfs Hc Hrect)
    as (s & v & a & w1 & Hs & Hv & Ha & Hrun1 & Hheap1 & Hfs1 & _).
  assert (Hfs' : fs w1 !! path = Some (File c)) by (by rewrite Hfs1).
  destruct (run_summary w1 path c Hfs' Hc Hrect)
    as (s' & v' & a' & w2 & Hs' & Hv' & Ha' & Hrun2 & Hheap2 & _).
  simplify_eq.
  exists w1, w2, (flight_figure s v a), (flight_figure s v a).
  split_and!; try done.
  - by eapply created_snoc.
  - by eapply created_snoc.
  - eapply created_snoc. rewrite Hheap2, Hheap1, <- app_assoc. done.
Qed.

Lemma trajectory_columns c c' a b d :
  rectangular c → a ∈ header c → b ∈ header c → d ∈ header c →
  column c a = column c' a → column c b = column c' b →
  column c d = column c' d →
  trajectory c (a, b, d) = trajectory c' (a, b, d).
Proof.
  intros Hrect Ha Hb Hd Ea Eb Ed.
  destruct (column_present c a Hrect Ha) as (xs & Hxs & _).
  destruct (column_present c b Hrect Hb) as (ys & Hys & _).
  destruct (column_present c d Hrect Hd) as (zs & Hzs & _).
  rewrite (trajectory_zip c a b d xs ys zs) by done.
  symmetry. apply trajectory_zip; congruence.
Qed.

(** C6: two well-formed files that agree on the nine required columns
    (same values, same row order), whatever other columns they have and
    whatever the state in which the renderer is started, give figures
    with identical panels: same vertex sequences, titles and labels. *)
Theorem extra_columns_ignored w1 w2 path1 path2 c1 c2 :
  fs w1 !! path1 = Some (File c1) → fs w2 !! path2 = Some (File c2) →
  well_formed c1 → well_formed c2 →
  Forall (λ n, column c1 n = column c2 n) required →
  ∃ w1' w2' f1 f2,
    plot_flight_data path1 w1 = (Ok (), w1') ∧
    plot_flight_data path2 w2 = (Ok (), w2') ∧
    created w1 w1' = Some f1 ∧ created w2 w2' = Some f2 ∧
    axes f1 = axes f2.
Proof.
  intros Hfs1 Hfs2 (Hc1 & Hrect1 & _) (Hc2 & Hrect2 & _) Hagree.
  destruct (run_summary w1 path1 c1 Hfs1 Hc1 Hrect1)
    as (s & v & a & w1' & Hs & Hv & Ha & Hrun1 & Hheap1 & _).
  destruct (run_summary w2 path2 c2 Hfs2 Hc2 Hrect2)
    as (s' & v' & a' & w2' & Hs' & Hv' & Ha' & Hrun2 & Hheap2 & _).
  unfold complete, required in Hc1. unfold required in Hagree.
  rewrite !Forall_cons in Hc1, Hagree.
  destruct Hc1 as (? & ? & ? & ? & ? & ? & ? & ? & ? & _).
  destruct Hagree as (? & ? & ? & ? & ? & ? & ? & ? & ? & _).
  rewrite (trajectory_columns c1 c2) in Hs, Hv, Ha by done.
  simplify_eq.
  exists w1', w2', (flight_figure s v a), (flight_figure s v a).
  split_and!; try done; by eapply created_snoc.
Qed.

(** C8: the entry point does not read the argument vector: whatever the
    arguments, the module body does the same thing, and run as a script
    it is the renderer applied to one literal path. *)
Theorem entry_point_ignores_argv (name : string) (argv argv' : list string) :
  @script value name argv = script name argv' ∧
  @script value "__main__" argv
  = plot_flight_data "/Users/adambyrne/.launchrail/motion/2025-01-26T21:47:39.csv".
Proof. split; reflexivity. Qed.

(** C10: the nine labels are looked up in the order Sx, Sy, Sz, Vx, Vy,
    Vz, Ax, Ay, Az, so on a file that loads and lacks one or more of
    them the renderer fails with the lookup error of the first label, in
    that order, that the header lacks. *)
Theorem first_missing_column_reported w path c j n :
  loads w path c → first_missing (header c) = Some (j, n) →
  (required !! j = Some n ∧ (n ∉ header c) ∧
   (∀ i m, (i < j)%nat → required !! i = Some m → m ∈ header c)) ∧
  ∃ w', plot_flight_data path w = (Raise (KeyError n), w') ∧
        schema_error (KeyError n) = true.
Proof.
  intros Hload Hm. split.
  - apply list_find_Some in Hm as (Hj & Hn & Hbefore). split_and!; try done.
    intros i m Hi Him. apply dec_stable. by eapply Hbefore.
  - destruct (run_missing w path c j n Hload Hm) as (done & _ & Hrun).
    eexists. by split.
Qed.

(** C3, as the code has it: on a file that loads and lacks one of the nine
    columns the renderer fails with the lookup error of the first missing
    label before the layout and display steps, so nothing is drawn on the
    display.  The figure object it leaves behind holds the finished panels
    of the triples before the one with the missing label, then one axes
    for the triple with the missing label that carries no line, no title
    and no label, and nothing for the later triples.  When the missing
    label is one of Sx, Sy, Sz no panel carries a line, a title or a
    label. *)
Theorem missing_column_stops_before_display w path c :
  loads w path c → ¬ complete c →
  ∃ j n done blank w',
    first_missing (header c) = Some (j, n) ∧
    plot_flight_data path w = (Raise (KeyError n), w') ∧
    screen w' = screen w ∧
    created w w' = Some (Figure (Some (15, 5)) (done ++ [blank]) false) ∧
    finished_panels c (j / 3)%nat = Some done ∧
    bare blank ∧ geometry blank = (1, 3, Z.of_nat (S (j / 3))) ∧
    ((j < 3)%nat → done = []).
Proof.
  intros Hload Hnc.
  destruct (first_missing (header c)) as [[j n]|] eqn:Hm;
    [|by apply first_missing_complete in Hm].
  destruct (run_missing w path c j n Hload Hm) as (done & Hdone & Hrun).
  exists j, n, done, (new_axes (1, 3, Z.of_nat (S (j / 3))) "3d"). eexists.
  split_and!; try done.
  - by eapply created_snoc.
  - intros Hj. rewrite Nat.div_small in Hdone by done.
    unfold finished_panels in Hdone. cbn in Hdone.
    unfold mret, option_ret in Hdone. by simplify_eq.
Qed.

End TelemetryFacts.

(** C7: a two-row input whose Sx, Sy, Sz fields are 0,0,0 in the first row
    and 1,2,3 in the second (the other required columns present): the
    Position panel's line goes through (0,0,0) first and (1,2,3) second. *)
Theorem two_row_example (w : world Z) path c r1 r2 :
  fs w !! path = Some (File c) → complete c → rectangular c →
  rows c = [r1; r2] →
  field (header c) "Sx" r1 = Some 0 → field (header c) "Sy" r1 = Some 0 →
  field (header c) "Sz" r1 = Some 0 →
  field (header c) "Sx" r2 = Some 1 → field (header c) "Sy" r2 = Some 2 →
  field (header c) "Sz" r2 = Some 3 →
  ∃ w' f p rest,
    plot_flight_data path w = (Ok (), w') ∧
    created w w' = Some f ∧ axes f = p :: rest ∧
    title p = "Position" ∧ lines p = [[(0, 0, 0); (1, 2, 3)]].
Proof.
  intros Hfs Hc Hrect Hrows Hx1 Hy1 Hz1 Hx2 Hy2 Hz2.
  destruct (run_summary w path c Hfs Hc Hrect)
    as (s & v & a & w' & Hs & _ & _ & Hrun & Hheap & _).
  unfold trajectory in Hs. rewrite Hrows in Hs.
  cbn in Hs. unfold sample in Hs. cbn in Hs.
  rewrite Hx1, Hy1, Hz1, Hx2, Hy2, Hz2 in Hs. cbn in Hs.
  unfold mret, option_ret in Hs. simplify_eq.
  eexists w', _, _, _. split_and!; [done|by eapply created_snoc|done..].
Qed.

(** ** The claims at concrete inputs *)

Lemma plotted_lines_follow_rows_witness :
  fs desktop !! "flight.csv" = Some (File flight_csv) ∧ well_formed flight_csv ∧
  ∃ w' f p1 p2 p3 s v a,
    plot_flight_data "flight.csv" desktop = (Ok (), w') ∧
    created desktop w' = Some f ∧ axes f = [p1; p2; p3] ∧
    lines p1 = [s] ∧ trajectory flight_csv ("Sx", "Sy", "Sz") = Some s ∧
    lines p2 = [v] ∧ trajectory flight_csv ("Vx", "Vy", "Vz") = Some v ∧
    lines p3 = [a] ∧ trajectory flight_csv ("Ax", "Ay", "Az") = Some a ∧
    length s = length (rows flight_csv) ∧ length v = length (rows flight_csv) ∧
    length a = length (rows flight_csv).
Proof.
  assert (H1 : fs desktop !! "flight.csv" = Some (File flight_csv))
    by (vm_compute; reflexivity).
  assert (H2 : well_formed flight_csv)
    by (split_and!; [repeat constructor..|simpl; lia]).
  split_and!; [exact H1|exact H2|].
  exact (plotted_lines_follow_rows desktop "flight.csv" flight_csv H1 H2).
Defined.

Lemma three_labelled_panels_witness :
  fs desktop !! "flight.csv" = Some (File flight_csv) ∧ well_formed flight_csv ∧
  ∃ w' f p1 p2 p3,
    plot_flight_data "flight.csv" desktop = (Ok (), w') ∧
    created desktop w' = Some f ∧ axes f = [p1; p2; p3] ∧
    (interactive desktop = true → last (screen w') = Some f) ∧
    geometry p1 = (1, 3, 1) ∧ title p1 = "Position" ∧
    xlabel p1 = "X (m)" ∧ ylabel p1 = "Y (m)" ∧ zlabel p1 = "Z (m)" ∧
    geometry p2 = (1, 3, 2) ∧ title p2 = "Velocity" ∧
    xlabel p2 = "X (m/s)" ∧ ylabel p2 = "Y (m/s)" ∧ zlabel p2 = "Z (m/s)" ∧
    geometry p3 = (1, 3, 3) ∧ title p3 = "Acceleration" ∧
    xlabel p3 = "X (m/s²)" ∧ ylabel p3 = "Y (m/s²)" ∧ zlabel p3 = "Z (m/s²)".
Proof.
  assert (H1 : fs desktop !! "flight.csv" = Some (File flight_csv))
    by (vm_compute; reflexivity).
  assert (H2 : well_formed flight_csv)
    by (split_and!; [repeat constructor..|simpl; lia]).
  split_and!; [exact H1|exact H2|].
  exact (three_labelled_panels desktop "flight.csv" flight_csv H1 H2).
Defined.

(** C3, as stated, fails: on a file that has Sx, Sy, Sz and lacks Vx the
    renderer raises the lookup error for Vx, and the figure object it has
    created by then already holds the Position panel with its line, its
    title and its three labels. *)
Lemma missing_column_leaves_finished_panel :
  loads desktop "no_vx.csv" no_vx_csv ∧ ("Vx" ∉ header no_vx_csv) ∧
  ∃ w' f p,
    plot_flight_data "no_vx.csv" desktop = (Raise (KeyError "Vx"), w') ∧
    created desktop w' = Some f ∧ axes f !! 0%nat = Some p ∧
    lines p = [[(0, 0, 0); (1, 2, 3)]] ∧ title p = "Position" ∧
    xlabel p = "X (m)" ∧ ylabel p = "Y (m)" ∧ zlabel p = "Z (m)".
Proof.
  split_and!.
  - split_and!; [vm_compute; reflexivity|done|repeat constructor].
  - apply (bool_decide_unpack _). vm_compute. exact I.
  - eexists _, _, _. split_and!; [vm_compute; reflexivity|reflexivity..].
Qed.

Lemma missing_column_stops_before_display_witness :
  loads desktop "no_vx.csv" no_vx_csv ∧ ¬ complete no_vx_csv ∧
  ∃ j n done blank w',
    first_missing (header no_vx_csv) = Some (j, n) ∧
    plot_flight_data "no_vx.csv" desktop = (Raise (KeyError n), w') ∧
    screen w' = screen desktop ∧
    created desktop w' = Some (Figure (Some (15, 5)) (done ++ [blank]) false) ∧
    finished_panels no_vx_csv (j / 3)%nat = Some done ∧
    bare blank ∧ geometry blank = (1, 3, Z.of_nat (S (j / 3))) ∧
    ((j < 3)%nat → done = []).
Proof.
  assert (H1 : loads desktop "no_vx.csv" no_vx_csv)
    by (split_and!; [vm_compute; reflexivity|done|repeat constructor]).
  assert (H2 : ¬ complete no_vx_csv).
  { apply (bool_decide_unpack _). vm_compute. exact I. }
  split_and!; [exact H1|exact H2|].
  exact (missing_column_stops_before_display desktop "no_vx.csv" no_vx_csv H1 H2).
Defined.

Lemma missing_file_is_load_error_witness :
  (fs desktop !! "nowhere.csv" = None ∨ fs desktop !! "nowhere.csv" = Some Unreadable) ∧
  ∃ e,
    read_csv "nowhere.csv" desktop = (Raise e, desktop) ∧
    plot_flight_data "nowhere.csv" desktop = (Raise e, desktop) ∧
    data_access_error e = true ∧ schema_error e = false.
Proof.
  assert (H1 : fs desktop !! "nowhere.csv" = None
               ∨ fs desktop !! "nowhere.csv" = Some Unreadable)
    by (left; vm_compute; reflexivity).
  split; [exact H1|].
  exact (missing_file_is_load_error desktop "nowhere.csv" H1).
Defined.

Lemma rerun_same_vertices_witness :
  fs desktop !! "flight.csv" = Some (File flight_csv) ∧ well_formed flight_csv ∧
  ∃ w1 w2 f1 f2,
    plot_flight_data "flight.csv" desktop = (Ok (), w1) ∧
    plot_flight_data "flight.csv" w1 = (Ok (), w2) ∧
    created desktop w1 = Some f1 ∧ created w1 w2 = Some f2 ∧
    axes f1 = axes f2 ∧ map lines (axes f1) = map lines (axes f2) ∧
    created desktop w2 = Some f1.
Proof.
  assert (H1 : fs desktop !! "flight.csv" = Some (File flight_csv))
    by (vm_compute; reflexivity).
  assert (H2 : well_formed flight_csv)
    by (split_and!; [repeat constructor..|simpl; lia]).
  split_and!; [exact H1|exact H2|].
  exact (rerun_same_vertices desktop "flight.csv" flight_csv H1 H2).
Defined.

Lemma extra_columns_ignored_witness :
  fs desktop !! "flight.csv" = Some (File flight_csv) ∧
  fs desktop !! "status.csv" = Some (File flight_csv_status) ∧
  well_formed flight_csv ∧ well_formed flight_csv_status ∧
  Forall (λ n, column flight_csv n = column flight_csv_status n) required ∧
  ∃ w1' w2' f1 f2,
    plot_flight_data "flight.csv" desktop = (Ok (), w1') ∧
    plot_flight_data "status.csv" desktop = (Ok (), w2') ∧
    created desktop w1' = Some f1 ∧ created desktop w2' = Some f2 ∧
    axes f1 = axes f2.
Proof.
  assert (H1 : fs desktop !! "flight.csv" = Some (File flight_csv))
    by (vm_compute; reflexivity).
  assert (H2 : fs desktop !! "status.csv" = Some (File flight_csv_status))
    by (vm_compute; reflexivity).
  assert (H3 : well_formed flight_csv)
    by (split_and!; [repeat constructor..|simpl; lia]).
  assert (H4 : well_formed flight_csv_status)
    by (split_and!; [repeat constructor..|simpl; lia]).
  assert (H5 : Forall (λ n, column flight_csv n = column flight_csv_status n) required)
    by (repeat constructor).
  split_and!; [exact H1|exact H2|exact H3|exact H4|exact H5|].
  exact (extra_columns_ignored desktop desktop "flight.csv" "status.csv"
           flight_csv flight_csv_status H1 H2 H3 H4 H5).
Defined.

Lemma two_row_example_witness :
  ∃ w' f p rest,
    plot_flight_data "flight.csv" desktop = (Ok (), w') ∧
    created desktop w' = Some f ∧ axes f = p :: rest ∧
    title p = "Position" ∧ lines p = [[(0, 0, 0); (1, 2, 3)]].
Proof.
  apply (two_row_example desktop "flight.csv" flight_csv
           [0; 0; 0; 0; 10; 20; 30; 1; 1; -9] [1; 1; 2; 3; 11; 21; 21; 1; 1; -9]).
  - vm_compute; reflexivity.
  - repeat constructor.
  - repeat constructor.
  - reflexivity.
  - reflexivity.
  - reflexivity.
  - reflexivity.
  - reflexivity.
  - reflexivity.
  - reflexivity.
Defined.

Lemma header_only_file_renders_witness :
  fs desktop !! "empty.csv" = Some (File header_only_csv) ∧
  complete header_only_csv ∧ rows header_only_csv = [] ∧
  ∃ w' f,
    plot_flight_data "empty.csv" desktop = (Ok (), w') ∧
    created desktop w' = Some f ∧
    axes f = [position_panel []; velocity_panel []; acceleration_panel []].
Proof.
  assert (H1 : fs desktop !! "empty.csv" = Some (File header_only_csv))
    by (vm_compute; reflexivity).
  assert (H2 : complete header_only_csv) by (repeat constructor).
  split_and!; [exact H1|exact H2|reflexivity|].
  exact (header_only_file_renders desktop "empty.csv" header_only_csv H1 H2 eq_refl).
Defined.

Lemma first_missing_column_reported_witness :
  loads desktop "no_vy_az.csv" no_vy_az_csv ∧
  first_missing (header no_vy_az_csv) = Some (4%nat, "Vy") ∧
  (required !! 4%nat = Some "Vy" ∧ ("Vy" ∉ header no_vy_az_csv) ∧
   (∀ i m, (i < 4)%nat → required !! i = Some m → m ∈ header no_vy_az_csv)) ∧
  ∃ w', plot_flight_data "no_vy_az.csv" desktop = (Raise (KeyError "Vy"), w') ∧
        schema_error (KeyError "Vy") = true.
Proof.
  assert (H1 : loads desktop "no_vy_az.csv" no_vy_az_csv)
    by (split_and!; [vm_compute; reflexivity|done|repeat constructor]).
  assert (H2 : first_missing (header no_vy_az_csv) = Some (4%nat, "Vy"))
    by (vm_compute; reflexivity).
  split; [exact H1|]. split; [exact H2|].
  exact (first_missing_column_reported desktop "no_vy_az.csv" no_vy_az_csv 4 "Vy" H1 H2).
Defined.

(** * More about the renderer *)

Section RendererFacts.
Context {value : Type}.
Implicit Types (w : world value) (c : csv value) (f : figure value).
Implicit Types (hdr : list string) (name path : string).

(** The load step either hands over the table of a file that [loads], or
    raises a data-access error and leaves the world alone. *)
Lemma read_csv_cases w path :
  (∃ c, loads w path c ∧ read_csv path w = (Ok (frame_of c), w)) ∨
  (∃ e, read_csv path w = (Raise e, w) ∧ data_access_error e = true ∧
        ∀ c, ¬ loads w path c).
Proof.
  unfold read_csv, loads.
  destruct (fs w !! path) as [[|c]|] eqn:Hfs.
  - right. eexists. split_and!; [done..|]. by intros c (? & _).
  - destruct (header c) as [|h hdr] eqn:Hhdr.
    + right. eexists. split_and!; [done..|].
      intros c' (? & ? & _). by simplify_eq.
    + destruct (rectangularb c) eqn:Hrect.
      * left. exists c. apply rectangularb_spec in Hrect.
        split_and!; try done. by rewrite Hhdr.
      * right. eexists. split_and!; [done..|].
        intros c' (? & _ & Hr). simplify_eq.
        apply rectangularb_spec in Hr. congruence.
  - right. eexists. split_and!; [done..|]. by intros c (? & _).
Qed.

(** The last statement in closed form. *)
Lemma plt_show_register w f :
  plt_show (register w f)
  = (Ok (),
     if interactive w
     then World (fs w) true (heap w ++ [f]) []
            (screen w ++ omap (λ h, (heap w ++ [f]) !! h) (open_figs w) ++ [f])
     else register w f).
Proof.
  unfold plt_show, register; simpl. destruct (interactive w); [|done].
  rewrite omap_app; simpl. by rewrite list_lookup_middle.
Qed.

(** Every run is of one of three kinds. *)
Lemma run_cases w path :
  (∃ e, plot_flight_data path w = (Raise e, w) ∧ data_access_error e = true ∧
        ∀ c, ¬ loads w path c) ∨
  (∃ c s v a, loads w path c ∧ complete c ∧
        plot_flight_data path w = plt_show (register w (flight_figure s v a))) ∨
  (∃ c j n done, loads w path c ∧ first_missing (header c) = Some (j, n) ∧
        plot_flight_data path w
        = (Raise (KeyError n),
           register w (Figure (Some (15, 5))
             (done ++ [new_axes (1, 3, Z.of_nat (S (j / 3))) "3d"]) false))).
Proof.
  destruct (read_csv_cases w path) as [(c & Hload & _)|(e & Hread & He & Hno)].
  - right. destruct (first_missing (header c)) as [[j n]|] eqn:Hm.
    + right. destruct (run_missing w path c j n Hload Hm) as (done & _ & Hrun).
      by exists c, j, n, done.
    + left. apply first_missing_complete in Hm.
      destruct Hload as (Hfs & Hhdr & Hrect).
      destruct (run_complete w path c Hfs Hm Hrect) as (s & v & a & _ & _ & _ & Hrun).
      exists c, s, v, a. by split_and!.
  - left. exists e. split_and!; try done.
    unfold plot_flight_data. by erewrite bind_raise.
Qed.



(** X3: whatever the path and the state, and whether it returns or raises,
    the renderer leaves the file system and the display mode as they were,
    leaves every figure object that existed as it was, creates at most one
    figure object, and only ever adds to what is on the display. *)
Theorem renderer_frame w path :
  let w' := (plot_flight_data path w).2 in
  fs w' = fs w ∧ interactive w' = interactive w ∧
  (∃ new, heap w' = heap w ++ new ∧ (length new ≤ 1)%nat) ∧
  (∃ drawn, screen w' = screen w ++ drawn).
Proof.
  destruct (run_cases w path)
    as [(e & Hrun & _)|[(c & s & v & a & _ & _ & Hrun)|(c & j & n & done & _ & _ & Hrun)]];
    rewrite Hrun; simpl.
  - split_and!; try done.
    + exists []. rewrite app_nil_r. split; [done|simpl; lia].
    + exists []. by rewrite app_nil_r.
  - rewrite plt_show_register; simpl. destruct (interactive w) eqn:Hi; simpl.
    + split_and!; try done; [|by eexists]. eexists. split; [done|simpl; lia].
    + split_and!; try done.
      * eexists. split; [done|simpl; lia].
      * exists []. by rewrite app_nil_r.
  - split_and!; try done.
    + eexists. split; [done|simpl; lia].
    + exists []. by rewrite app_nil_r.
Qed.

(** X4: when the load step raises, whatever the exception (no such file,
    no permission, no header line, a row of the wrong length), the
    renderer raises that same exception, it is a data-access error, and
    the world is unchanged: no figure object has been created. *)
Theorem load_failure_creates_nothing w path e w' :
  read_csv path w = (Raise e, w') →
  w' = w ∧ plot_flight_data path w = (Raise e, w) ∧
  data_access_error e = true ∧ schema_error e = false.
Proof.
  intros Hread.
  destruct (read_csv_cases w path) as [(c & _ & Hok)|(e' & Hread' & He & _)];
    [congruence|].
  rewrite Hread in Hread'. simplify_eq. split_and!; try done.
  - unfold plot_flight_data. by erewrite bind_raise.
  - by destruct e'.
Qed.

(** X5: what a successful run leaves on the display and in pyplot's
    registry.  With a display, [plt.show] draws every figure that was open
    before the call and then the new one, and when it returns no figure is
    open.  Without a display nothing is drawn and the new figure stays
    open as the current figure: the script never closes it. *)
Theorem show_after_success w path c :
  fs w !! path = Some (File c) → complete c → rectangular c →
  ∃ w' f,
    plot_flight_data path w = (Ok (), w') ∧ created w w' = Some f ∧
    if interactive w
    then open_figs w' = [] ∧
         screen w' = screen w ++ omap (λ h, heap w' !! h) (open_figs w) ++ [f]
    else open_figs w' = open_figs w ++ [length (heap w)] ∧
         last (open_figs w') = Some (length (heap w)) ∧
         screen w' = screen w.
Proof.
  intros Hfs Hc Hrect.
  destruct (run_complete w path c Hfs Hc Hrect) as (s & v & a & _ & _ & _ & Hrun).
  rewrite plt_show_register in Hrun.
  eexists _, (flight_figure s v a). split; [exact Hrun|].
  destruct (interactive w); simpl.
  - split_and!; try done. by eapply created_snoc.
  - split_and!; try done; [by eapply created_snoc|apply last_snoc].
Qed.

(** X6: when a column is missing the figure under construction is not
    closed: after the lookup error it is still registered as pyplot's
    current figure, without the layout step applied, so a later
    [plt.show()] in the same process draws the unfinished figure. *)
Theorem failed_run_leaves_figure_open w path c j n :
  loads w path c → first_missing (header c) = Some (j, n) →
  ∃ w' f,
    plot_flight_data path w = (Raise (KeyError n), w') ∧
    created w w' = Some f ∧ tight f = false ∧
    (length (axes f) = S (j / 3))%nat ∧
    last (open_figs w') = Some (length (heap w)) ∧
    (interactive w = true →
     ∃ w'', plt_show w' = (Ok (), w'') ∧ last (screen w'') = Some f).
Proof.
  intros Hload Hm.
  destruct (run_missing w path c j n Hload Hm) as (done & Hdone & Hrun).
  eexists _, _. split; [exact Hrun|]. split_and!.
  - by eapply created_snoc.
  - done.
  - cbn [axes]. rewrite length_app. cbn [length].
    unfold finished_panels in Hdone. apply length_mapM in Hdone.
    rewrite length_take in Hdone.
    change (length panel_table) with 3%nat in Hdone.
    apply list_find_Some in Hm as (Hj & _). apply lookup_lt_Some in Hj.
    change (length required) with 9%nat in Hj.
    assert (j / 3 < 3)%nat by (apply Nat.Div0.div_lt_upper_bound; lia).
    lia.
  - apply last_snoc.
  - intros Hi.
    destruct (run_plt_show w (Figure (Some (15, 5))
      (done ++ [new_axes (1, 3, Z.of_nat (S (j / 3))) "3d"]) false))
      as (w'' & Hshow & _ & _ & _ & Hlast & _).
    exists w''. split; [done|by apply Hlast].
Qed.

(** X7: the figure of a successful run is created 15 by 5, gets the tight
    layout, and each of its axes is a 3d axes holding exactly one line. *)
Theorem figure_layout w path c :
  fs w !! path = Some (File c) → complete c → rectangular c →
  ∃ w' f,
    plot_flight_data path w = (Ok (), w') ∧ created w w' = Some f ∧
    figsize f = Some (15, 5) ∧ tight f = true ∧
    Forall (λ p, projection p = "3d" ∧ length (lines p) = 1%nat) (axes f).
Proof.
  intros Hfs Hc Hrect.
  destruct (run_summary w path c Hfs Hc Hrect)
    as (s & v & a & w' & _ & _ & _ & Hrun & Hheap & _).
  exists w', (flight_figure s v a).
  split_and!; try done; [by eapply created_snoc|]. by repeat constructor.
Qed.

Lemma trajectory_snoc c c' names r s pt :
  header c' = header c → rows c' = rows c ++ [r] →
  trajectory c names = Some s → sample (header c) names r = Some pt →
  trajectory c' names = Some (s ++ [pt]).
Proof.
  unfold trajectory. intros -> ->. rewrite !mapM_Some. intros Hs Hpt.
  apply Forall2_app; [done|]. by repeat constructor.
Qed.

Lemma sample_present hdr a b d (r : list value) :
  a ∈ hdr → b ∈ hdr → d ∈ hdr → length r = length hdr →
  is_Some (sample hdr (a, b, d) r).
Proof.
  intros Ha Hb Hd Hr. unfold sample; simpl.
  destruct (field_present hdr a r Ha Hr) as [x ->].
  destruct (field_present hdr b r Hb Hr) as [y ->].
  destruct (field_present hdr d r Hd Hr) as [z ->]. by eexists.
Qed.

(** X8: a log grows with its flight.  When a file is the file [c] with one
    more row at the end, each of its three lines is the line drawn for
    [c] followed by exactly one vertex, the sample of the new row: the
    earlier vertices are unchanged and stay in place. *)
Theorem appended_row_appends_vertex w w' path path' c c' r :
  fs w !! path = Some (File c) → fs w' !! path' = Some (File c') →
  complete c → rectangular c →
  header c' = header c → rows c' = rows c ++ [r] →
  length r = length (header c) →
  ∃ w1 w1' f f' s v a ps pv pa,
    plot_flight_data path w = (Ok (), w1) ∧ created w w1 = Some f ∧
    plot_flight_data path' w' = (Ok (), w1') ∧ created w' w1' = Some f' ∧
    map lines (axes f) = [[s]; [v]; [a]] ∧
    map lines (axes f') = [[s ++ [ps]]; [v ++ [pv]]; [a ++ [pa]]] ∧
    sample (header c) ("Sx", "Sy", "Sz") r = Some ps ∧
    sample (header c) ("Vx", "Vy", "Vz") r = Some pv ∧
    sample (header c) ("Ax", "Ay", "Az") r = Some pa.
Proof.
  intros Hfs Hfs' Hc Hrect Hhdr Hrows Hr.
  assert (Hc' : complete c') by (unfold complete; by rewrite Hhdr).
  assert (Hrect' : rectangular c').
  { unfold rectangular. rewrite Hrows, Hhdr. apply Forall_app. split; [done|].
    by repeat constructor. }
  destruct (run_summary w path c Hfs Hc Hrect)
    as (s & v & a & w1 & Hs & Hv & Ha & Hrun & Hheap & _).
  destruct (run_summary w' path' c' Hfs' Hc' Hrect')
    as (s' & v' & a' & w1' & Hs' & Hv' & Ha' & Hrun' & Hheap' & _).
  unfold complete, required in Hc. rewrite !Forall_cons in Hc.
  destruct Hc as (? & ? & ? & ? & ? & ? & ? & ? & ? & _).
  destruct (sample_present (header c) "Sx" "Sy" "Sz" r) as [ps Hps]; try done.
  destruct (sample_present (header c) "Vx" "Vy" "Vz" r) as [pv Hpv]; try done.
  destruct (sample_present (header c) "Ax" "Ay" "Az" r) as [pa Hpa]; try done.
  rewrite (trajectory_snoc c c' _ r s ps) in Hs' by done.
  rewrite (trajectory_snoc c c' _ r v pv) in Hv' by done.
  rewrite (trajectory_snoc c c' _ r a pa) in Ha' by done.
  simplify_eq.
  exists w1, w1', (flight_figure s v a),
    (flight_figure (s ++ [ps]) (v ++ [pv]) (a ++ [pa])), s, v, a, ps, pv, pa.
  split_and!; try done; by eapply created_snoc.
Qed.

(** X9: run as a script on a machine where the file named by the literal
    path does not exist, the module fails with the file-not-found error
    for exactly that path, whatever the arguments, and creates nothing. *)
Theorem script_without_log_file w (argv : list string) :
  fs w !! csv_path_literal = None →
  script "__main__" argv w = (Raise (FileNotFoundError csv_path_literal), w).
Proof.
  intros Hfs. unfold script. rewrite decide_True by done.
  unfold plot_flight_data. erewrite bind_raise; [done|].
  unfold read_csv. by rewrite Hfs.
Qed.

(** X10: each panel is a function of its own three columns.  For two files
    that load and have the nine labels, the Position panels are equal as
    soon as the Sx, Sy, Sz columns agree, whatever the velocity and
    acceleration columns hold; likewise for the other two panels. *)
Theorem panel_depends_on_its_triple w1 w2 path1 path2 c1 c2 :
  fs w1 !! path1 = Some (File c1) → fs w2 !! path2 = Some (File c2) →
  complete c1 → rectangular c1 → complete c2 → rectangular c2 →
  ∃ w1' w2' f1 f2,
    plot_flight_data path1 w1 = (Ok (), w1') ∧ created w1 w1' = Some f1 ∧
    plot_flight_data path2 w2 = (Ok (), w2') ∧ created w2 w2' = Some f2 ∧
    (column c1 "Sx" = column c2 "Sx" → column c1 "Sy" = column c2 "Sy" →
     column c1 "Sz" = column c2 "Sz" → axes f1 !! 0%nat = axes f2 !! 0%nat) ∧
    (column c1 "Vx" = column c2 "Vx" → column c1 "Vy" = column c2 "Vy" →
     column c1 "Vz" = column c2 "Vz" → axes f1 !! 1%nat = axes f2 !! 1%nat) ∧
    (column c1 "Ax" = column c2 "Ax" → column c1 "Ay" = column c2 "Ay" →
     column c1 "Az" = column c2 "Az" → axes f1 !! 2%nat = axes f2 !! 2%nat).
Proof.
  intros Hfs1 Hfs2 Hc1 Hrect1 Hc2 Hrect2.
  destruct (run_summary w1 path1 c1 Hfs1 Hc1 Hrect1)
    as (s & v & a & w1' & Hs & Hv & Ha & Hrun1 & Hheap1 & _).
  destruct (run_summary w2 path2 c2 Hfs2 Hc2 Hrect2)
    as (s' & v' & a' & w2' & Hs' & Hv' & Ha' & Hrun2 & Hheap2 & _).
  unfold complete, required in Hc1. rewrite !Forall_cons in Hc1.
  destruct Hc1 as (? & ? & ? & ? & ? & ? & ? & ? & ? & _).
  exists w1', w2', (flight_figure s v a), (flight_figure s' v' a').
  split_and!; try done; try (by eapply created_snoc).
  - intros. rewrite (trajectory_columns c1 c2) in Hs by done. by simplify_eq.
  - intros. rewrite (trajectory_columns c1 c2) in Hv by done. by simplify_eq.
  - intros. rewrite (trajectory_columns c1 c2) in Ha by done. by simplify_eq.
Qed.

End RendererFacts.

Lemma load_failure_creates_nothing_witness :
  read_csv "locked.csv" desktop = (Raise (PermissionError "locked.csv"), desktop) ∧
  desktop = desktop ∧
  plot_flight_data "locked.csv" desktop = (Raise (PermissionError "locked.csv"), desktop) ∧
  data_access_error (PermissionError "locked.csv") = true ∧
  schema_error (PermissionError "locked.csv") = false.
Proof.
  assert (H1 : read_csv "locked.csv" desktop
               = (Raise (PermissionError "locked.csv"), desktop))
    by (vm_compute; reflexivity).
  split; [exact H1|].
  exact (load_failure_creates_nothing desktop "locked.csv" _ _ H1).
Defined.

Lemma show_after_success_witness :
  fs server !! "flight.csv" = Some (File flight_csv) ∧
  complete flight_csv ∧ rectangular flight_csv ∧
  ∃ w' f,
    plot_flight_data "flight.csv" server = (Ok (), w') ∧
    created server w' = Some f ∧
    if interactive server
    then open_figs w' = [] ∧
         screen w' = screen server ++ omap (λ h, heap w' !! h) (open_figs server) ++ [f]
    else open_figs w' = open_figs server ++ [length (heap server)] ∧
         last (open_figs w') = Some (length (heap server)) ∧
         screen w' = screen server.
Proof.
  assert (H1 : fs server !! "flight.csv" = Some (File flight_csv))
    by (vm_compute; reflexivity).
  assert (H2 : complete flight_csv) by (repeat constructor).
  assert (H3 : rectangular flight_csv) by (repeat constructor).
  split_and!; [exact H1|exact H2|exact H3|].
  exact (show_after_success server "flight.csv" flight_csv H1 H2 H3).
Defined.

Lemma failed_run_leaves_figure_open_witness :
  loads desktop "no_vy_az.csv" no_vy_az_csv ∧
  first_missing (header no_vy_az_csv) = Some (4%nat, "Vy") ∧
  ∃ w' f,
    plot_flight_data "no_vy_az.csv" desktop = (Raise (KeyError "Vy"), w') ∧
    created desktop w' = Some f ∧ tight f = false ∧
    (length (axes f) = S (4 / 3))%nat ∧
    last (open_figs w') = Some (length (heap desktop)) ∧
    (interactive desktop = true →
     ∃ w'', plt_show w' = (Ok (), w'') ∧ last (screen w'') = Some f).
Proof.
  assert (H1 : loads desktop "no_vy_az.csv" no_vy_az_csv)
    by (split_and!; [vm_compute; reflexivity|done|repeat constructor]).
  assert (H2 : first_missing (header no_vy_az_csv) = Some (4%nat, "Vy"))
    by (vm_compute; reflexivity).
  split_and!; [exact H1|exact H2|].
  exact (failed_run_leaves_figure_open desktop "no_vy_az.csv" no_vy_az_csv 4 "Vy" H1 H2).
Defined.

Lemma figure_layout_witness :
  fs desktop !! "flight.csv" = Some (File flight_csv) ∧
  complete flight_csv ∧ rectangular flight_csv ∧
  ∃ w' f,
    plot_flight_data "flight.csv" desktop = (Ok (), w') ∧
    created desktop w' = Some f ∧
    figsize f = Some (15, 5) ∧ tight f = true ∧
    Forall (λ p, projection p = "3d" ∧ length (lines p) = 1%nat) (axes f).
Proof.
  assert (H1 : fs desktop !! "flight.csv" = Some (File flight_csv))
    by (vm_compute; reflexivity).
  assert (H2 : complete flight_csv) by (repeat constructor).
  assert (H3 : rectangular flight_csv) by (repeat constructor).
  split_and!; [exact H1|exact H2|exact H3|].
  exact (figure_layout desktop "flight.csv" flight_csv H1 H2 H3).
Defined.

Lemma appended_row_appends_vertex_witness :
  ∃ w1 w1' f f' s v a ps pv pa,
    plot_flight_data "first.csv" server = (Ok (), w1) ∧
    created server w1 = Some f ∧
    plot_flight_data "flight.csv" desktop = (Ok (), w1') ∧
    created desktop w1' = Some f' ∧
    map lines (axes f) = [[s]; [v]; [a]] ∧
    map lines (axes f') = [[s ++ [ps]]; [v ++ [pv]]; [a ++ [pa]]] ∧
    sample (header flight_csv_first) ("Sx", "Sy", "Sz")
      [1; 1; 2; 3; 11; 21; 21; 1; 1; -9] = Some ps ∧
    sample (header flight_csv_first) ("Vx", "Vy", "Vz")
      [1; 1; 2; 3; 11; 21; 21; 1; 1; -9] = Some pv ∧
    sample (header flight_csv_first) ("Ax", "Ay", "Az")
      [1; 1; 2; 3; 11; 21; 21; 1; 1; -9] = Some pa.
Proof.
  apply (appended_row_appends_vertex server desktop "first.csv" "flight.csv"
           flight_csv_first flight_csv [1; 1; 2; 3; 11; 21; 21; 1; 1; -9]).
  - vm_compute; reflexivity.
  - vm_compute; reflexivity.
  - repeat constructor.
  - repeat constructor.
  - reflexivity.
  - reflexivity.
  - reflexivity.
Defined.

Lemma script_without_log_file_witness :
  fs desktop !! csv_path_literal = None ∧
  script "__main__" ["sample.py"; "flight.csv"] desktop
  = (Raise (FileNotFoundError csv_path_literal), desktop).
Proof.
  assert (H1 : fs desktop !! csv_path_literal = None) by (vm_compute; reflexivity).
  split; [exact H1|].
  exact (script_without_log_file desktop ["sample.py"; "flight.csv"] H1).
Defined.

Lemma panel_depends_on_its_triple_witness :
  ∃ w1' w2' f1 f2,
    plot_flight_data "flight.csv" desktop = (Ok (), w1') ∧
    created desktop w1' = Some f1 ∧
    plot_flight_data "status.csv" server = (Ok (), w2') ∧
    created server w2' = Some f2 ∧
    (column flight_csv "Sx" = column flight_csv_status "Sx" →
     column flight_csv "Sy" = column flight_csv_status "Sy" →
     column flight_csv "Sz" = column flight_csv_status "Sz" →
     axes f1 !! 0%nat = axes f2 !! 0%nat) ∧
    (column flight_csv "Vx" = column flight_csv_status "Vx" →
     column flight_csv "Vy" = column flight_csv_status "Vy" →
     column flight_csv "Vz" = column flight_csv_status "Vz" →
     axes f1 !! 1%nat = axes f2 !! 1%nat) ∧
    (column flight_csv "Ax" = column flight_csv_status "Ax" →
     column flight_csv "Ay" = column flight_csv_status "Ay" →
     column flight_csv "Az" = column flight_csv_status "Az" →
     axes f1 !! 2%nat = axes f2 !! 2%nat).
Proof.
  apply (panel_depends_on_its_triple desktop server "flight.csv" "status.csv"
           flight_csv flight_csv_status).
  - vm_compute; reflexivity.
  - vm_compute; reflexivity.
  - repeat constructor.
  - repeat constructor.
  - repeat constructor.
  - repeat constructor.
Defined.
